(** * net-scan1: the dashboard page script [static/script.js]

    The script registers one [DOMContentLoaded] listener.  The listener
    arms a 30 s reload timer when the page is the root path, and then
    builds a Bootstrap tooltip for every element selected by
    [[data-bs-toggle="tooltip"]].

    The script is embedded as a computation in a state-and-exception monad
    over a model of the page: the location, the element tree, the global
    [bootstrap] binding, the pending timers, and the trace of host calls
    the script makes. *)

From Stdlib Require Import String List ZArith Lia Bool Arith.
Import ListNotations.
Local Open Scope string_scope.
Local Open Scope Z_scope.
Local Open Scope list_scope.
Set Warnings "-register-all".

(** ** The element tree *)

Module Dom.

(** A node is an object; [NodeId] is its identity (what a JavaScript
    reference to the element denotes). *)
Definition NodeId := nat.

Inductive Element : Type :=
  Elem (node : NodeId) (tagName : string)
       (attributes : list (string * string)) (children : list Element).

Definition node_id (e : Element) : NodeId :=
  match e with Elem n _ _ _ => n end.

Definition attributes (e : Element) : list (string * string) :=
  match e with Elem _ _ a _ => a end.

Definition children (e : Element) : list Element :=
  match e with Elem _ _ _ c => c end.

(** The document is the forest under the document node. *)
Definition Document := list Element.

(** Tree order (pre-order, depth first): an element, then its subtree,
    child by child. *)
Fixpoint descendants_or_self (e : Element) : list Element :=
  match e with
  | Elem _ _ _ cs => e :: flat_map descendants_or_self cs
  end.

Definition all_elements (d : Document) : list Element :=
  flat_map descendants_or_self d.

(** [el.getAttribute(name)]: the first attribute of that name. *)
Fixpoint getAttribute (attrs : list (string * string)) (name : string)
  : option string :=
  match attrs with
  | [] => None
  | (n, v) :: rest => if String.eqb n name then Some v else getAttribute rest name
  end.

(** The selectors the script uses: [[name="value"]]. *)
Inductive Selector : Type :=
  AttrEquals (name value : string).

Definition matches (s : Selector) (e : Element) : bool :=
  match s with
  | AttrEquals name value =>
      match getAttribute (attributes e) name with
      | Some v => String.eqb v value
      | None => false
      end
  end.

(** [document.querySelectorAll(s)]: a static list of references to the
    matching elements, in tree order. *)
Definition querySelectorAll (s : Selector) (d : Document) : list NodeId :=
  map node_id (filter (matches s) (all_elements d)).

(** Every node of the document is a distinct object. *)
Definition distinct_nodes (d : Document) : Prop :=
  NoDup (map node_id (all_elements d)).

End Dom.
Import Dom.

(** ** The page and its host *)

(** What the script, or the library it calls, can throw. *)
Inductive Fault : Type :=
| ReferenceError (name : string)
| TypeError (message : string)
| LibraryFault (message : string).

(** The closures the script hands to the host, one constructor each. *)
Inductive Callback : Type :=
| ReloadArrow.            (* () => { window.location.reload(); } *)

Inductive Listener : Type :=
| ReadyListener.          (* the function passed to addEventListener *)

(** [setTimeout] arms a timer that runs once, [setInterval] one that is
    re-armed each time it has run. *)
Inductive TimerKind : Type := OneShot | Repeating.

Record Timer : Type := mkTimer {
  kind : TimerKind;
  delay : Z;              (* milliseconds, as passed by the script *)
  due : Z;                (* host clock value at which it runs next *)
  callback : Callback
}.

(** The host calls the script makes, in the order it makes them. *)
Inductive Event : Type :=
| EvGetPathname
| EvSetTimeout (cb : Callback) (ms : Z)
| EvQuerySelectorAll (s : Selector)
| EvNewTooltip (target : NodeId)
| EvReload.

(** A tooltip controller, owned by the library. *)
Inductive Controller : Type := ControllerFor (target : NodeId).

(** A statement either completes with a value or throws. *)
Inductive Completion (A : Type) : Type :=
| Normal (a : A)
| Throw (f : Fault).
Arguments Normal {A} a.
Arguments Throw {A} f.

Section Page.

(** The widget library is external: its private state is any type, and its
    constructor is any function that, given the element reference, may
    change the document and its own state and may throw. *)
Context {LibState : Type}.

Definition Constructor : Type :=
  NodeId -> Document -> LibState -> Document * LibState * option Fault.

(** The global name [bootstrap] as the script finds it. *)
Inductive Binding : Type :=
| Undeclared                                (* no such global *)
| NotAnObject                               (* undefined or null *)
| Namespace (Tooltip : option Constructor). (* an object; its Tooltip member *)

Record Page : Type := mkPage {
  pathname : string;                        (* window.location.pathname *)
  document : Document;
  bootstrap : Binding;
  lib_state : LibState;
  now : Z;                                  (* host clock, milliseconds *)
  timers : list Timer;                      (* armed, not yet cleared *)
  listeners : list (string * Listener);
  trace : list Event;
  uncaught : list Fault                     (* reported to the host *)
}.

Definition with_realm (d : Document) (s : LibState) (p : Page) : Page :=
  mkPage (pathname p) d (bootstrap p) s (now p) (timers p)
         (listeners p) (trace p) (uncaught p).

Definition with_now (n : Z) (p : Page) : Page :=
  mkPage (pathname p) (document p) (bootstrap p) (lib_state p) n (timers p)
         (listeners p) (trace p) (uncaught p).

Definition with_timers (ts : list Timer) (p : Page) : Page :=
  mkPage (pathname p) (document p) (bootstrap p) (lib_state p) (now p) ts
         (listeners p) (trace p) (uncaught p).

Definition with_listeners (ls : list (string * Listener)) (p : Page) : Page :=
  mkPage (pathname p) (document p) (bootstrap p) (lib_state p) (now p)
         (timers p) ls (trace p) (uncaught p).

Definition with_uncaught (fs : list Fault) (p : Page) : Page :=
  mkPage (pathname p) (document p) (bootstrap p) (lib_state p) (now p)
         (timers p) (listeners p) (trace p) fs.

Definition log_event (e : Event) (p : Page) : Page :=
  mkPage (pathname p) (document p) (bootstrap p) (lib_state p) (now p)
         (timers p) (listeners p) (trace p ++ [e]) (uncaught p).

(** *** Script computations: page state, with exceptions

    The page keeps whatever was done before a throw. *)

Definition Js (A : Type) : Type := Page -> Page * Completion A.

Definition ret {A} (a : A) : Js A := fun p => (p, Normal a).

Definition throw {A} (f : Fault) : Js A := fun p => (p, Throw f).

Definition bind {A B} (m : Js A) (k : A -> Js B) : Js B :=
  fun p =>
    match m p with
    | (p', Normal a) => k a p'
    | (p', Throw f) => (p', Throw f)
    end.

Notation "x <- m ;; k" := (bind m (fun x => k))
  (at level 61, m at next level, right associativity).
Notation "m ;; k" := (bind m (fun _ => k))
  (at level 61, right associativity).

(** *** Host interface *)

(** [window.location.pathname] *)
Definition get_pathname : Js string :=
  fun p => (log_event EvGetPathname p, Normal (pathname p)).

(** [setTimeout(cb, ms)] *)
Definition setTimeout (cb : Callback) (ms : Z) : Js unit :=
  fun p =>
    let p1 := log_event (EvSetTimeout cb ms) p in
    (with_timers (timers p1 ++ [mkTimer OneShot ms (now p1 + ms) cb]) p1,
     Normal tt).

(** [document.querySelectorAll(s)] *)
Definition document_querySelectorAll (s : Selector) : Js (list NodeId) :=
  fun p =>
    (log_event (EvQuerySelectorAll s) p, Normal (querySelectorAll s (document p))).

(** [[].slice.call(nodeList)]: a fresh array with the same references in
    the same order. *)
Definition slice_call (nodeList : list NodeId) : list NodeId := nodeList.

(** [array.map(f)]: [f] on each element by ascending index; a throw from
    [f] leaves [map] at once. *)
Fixpoint array_map {A B} (f : A -> Js B) (l : list A) : Js (list B) :=
  match l with
  | [] => ret []
  | x :: xs =>
      y <- f x ;;
      ys <- array_map f xs ;;
      ret (y :: ys)
  end.

(** [new bootstrap.Tooltip(el)]: resolve the global, read its member,
    construct. *)
Definition new_bootstrap_Tooltip (el : NodeId) : Js Controller :=
  fun p =>
    match bootstrap p with
    | Undeclared => throw (ReferenceError "bootstrap") p
    | NotAnObject => throw (TypeError "bootstrap has no properties") p
    | Namespace None =>
        throw (TypeError "bootstrap.Tooltip is not a constructor") p
    | Namespace (Some ctor) =>
        let p1 := log_event (EvNewTooltip el) p in
        match ctor el (document p1) (lib_state p1) with
        | (d, s, None) => (with_realm d s p1, Normal (ControllerFor el))
        | (d, s, Some f) => (with_realm d s p1, Throw f)
        end
    end.

(** [document.addEventListener(name, l)] *)
Definition addEventListener (name : string) (l : Listener) : Js unit :=
  fun p => (with_listeners (listeners p ++ [(name, l)]) p, Normal tt).

(** ** The script *)

Definition tooltip_selector : Selector :=
  AttrEquals "data-bs-toggle" "tooltip".

(** The body of the [DOMContentLoaded] listener. *)
Definition on_DOMContentLoaded : Js unit :=
  path <- get_pathname ;;
  (if String.eqb path "/" then setTimeout ReloadArrow 30000 else ret tt) ;;
  nodeList <- document_querySelectorAll tooltip_selector ;;
  let tooltipTriggerList := slice_call nodeList in
  tooltipList <- array_map new_bootstrap_Tooltip tooltipTriggerList ;;
  ret tt.

(** The script's top level. *)
Definition script : Js unit :=
  addEventListener "DOMContentLoaded" ReadyListener.

Definition listener_body (l : Listener) : Js unit :=
  match l with ReadyListener => on_DOMContentLoaded end.

Definition callback_body (cb : Callback) : Js unit :=
  match cb with
  | ReloadArrow => fun p => (log_event EvReload p, Normal tt)
  end.

(** ** The host's side: event dispatch and timers *)

Definition report (f : Fault) (p : Page) : Page :=
  with_uncaught (uncaught p ++ [f]) p.

(** Listeners registered for [name] run in registration order, each to
    completion; what one throws is reported and the next still runs. *)
Fixpoint run_listeners (name : string) (ls : list (string * Listener))
  (p : Page) : Page :=
  match ls with
  | [] => p
  | (n, l) :: rest =>
      if String.eqb n name then
        match listener_body l p with
        | (p', Normal _) => run_listeners name rest p'
        | (p', Throw f) => run_listeners name rest (report f p')
        end
      else run_listeners name rest p
  end.

Definition dispatchEvent (name : string) (p : Page) : Page :=
  run_listeners name (listeners p) p.

(** A page as the host hands it to the script: nothing armed, nothing
    registered, the clock at its origin. *)
Definition fresh_page (path : string) (d : Document) (b : Binding)
  (s : LibState) : Page :=
  mkPage path d b s 0 [] [] [] [].

(** One page load: the script's top level runs, then the host fires
    [DOMContentLoaded] once. *)
Definition page_load (path : string) (d : Document) (b : Binding)
  (s : LibState) : Page :=
  dispatchEvent "DOMContentLoaded" (fst (script (fresh_page path d b s))).

Definition run_callback (cb : Callback) (p : Page) : Page :=
  match callback_body cb p with
  | (p', Normal _) => p'
  | (p', Throw f) => report f p'
  end.

Definition rearm (t : Timer) : Timer :=
  mkTimer Repeating (delay t) (due t + Z.max 1 (delay t)) (callback t).

(** The timers due at clock value [t]: their callbacks, in arming order,
    and the timers that stay armed.  A one-shot timer is cleared when it
    runs; a repeating one is armed again. *)
Fixpoint fire_due (t : Z) (ts : list Timer) : list Timer * list Callback :=
  match ts with
  | [] => ([], [])
  | x :: rest =>
      let (keep, cbs) := fire_due t rest in
      if due x <=? t then
        match kind x with
        | OneShot => (keep, callback x :: cbs)
        | Repeating => (rearm x :: keep, callback x :: cbs)
        end
      else (x :: keep, cbs)
  end.

(** One millisecond passes.  A reload request starts a navigation; the
    page stays as it is until the host replaces it, so its timers are kept
    here. *)
Definition host_tick (p : Page) : Page :=
  let t := now p + 1 in
  let (keep, cbs) := fire_due t (timers p) in
  fold_left (fun q cb => run_callback cb q) cbs (with_timers keep (with_now t p)).

Fixpoint host_run (ms : nat) (p : Page) : Page :=
  match ms with
  | O => p
  | S k => host_run k (host_tick p)
  end.

(** ** What is observed of a page *)

Definition is_reload (e : Event) : bool :=
  match e with EvReload => true | _ => false end.

Definition is_construction (e : Event) : bool :=
  match e with EvNewTooltip _ => true | _ => false end.

Definition is_refresh_step (e : Event) : bool :=
  match e with EvGetPathname | EvSetTimeout _ _ => true | _ => false end.


(** Reload requests issued so far. *)
Definition reloads (p : Page) : nat :=
  length (filter is_reload (trace p)).

(** Targets of the tooltip constructor calls made so far, in call order. *)
Fixpoint construction_targets (tr : list Event) : list NodeId :=
  match tr with
  | [] => []
  | EvNewTooltip n :: rest => n :: construction_targets rest
  | _ :: rest => construction_targets rest
  end.

Definition constructions (p : Page) : list NodeId :=
  construction_targets (trace p).

(** The elements carrying the marker, in tree order, and the others. *)
Definition marked (d : Document) : list Element :=
  filter (matches tooltip_selector) (all_elements d).

Definition unmarked (d : Document) : list Element :=
  filter (fun e => negb (matches tooltip_selector e)) (all_elements d).

(** The value of the marker attribute on an element, and two documents
    that agree on it, element by element in tree order. *)
Definition marker_of (e : Element) : option string :=
  getAttribute (attributes e) "data-bs-toggle".


(** The page when the host fires [DOMContentLoaded]: the script's top
    level has run. *)
Definition ready_page (path : string) (d : Document) (b : Binding)
  (s : LibState) : Page :=
  fst (script (fresh_page path d b s)).

(** The page after the listener's first statement, and after its query. *)
Definition after_refresh (p : Page) : Page :=
  let p1 := log_event EvGetPathname p in
  if String.eqb (pathname p) "/"
  then fst (setTimeout ReloadArrow 30000 p1)
  else p1.

Definition before_tooltips (p : Page) : Page :=
  log_event (EvQuerySelectorAll tooltip_selector) (after_refresh p).

(** The timer the listener arms. *)
Definition refresh_timer (armed_at : Z) : Timer :=
  mkTimer OneShot 30000 (armed_at + 30000) ReloadArrow.

(** The host calls of the listener's first statement. *)
Definition refresh_steps (path : string) : list Event :=
  EvGetPathname ::
  (if String.eqb path "/" then [EvSetTimeout ReloadArrow 30000] else []).

(** The constructor the script reaches through [bootstrap.Tooltip], if
    there is one. *)
Definition tooltip_constructor (b : Binding) : option Constructor :=
  match b with
  | Namespace (Some ctor) => Some ctor
  | _ => None
  end.

Definition never_throws (ctor : Constructor) : Prop :=
  forall n d s, snd (ctor n d s) = None.



(** The parts of the page the tooltip loop has no statement for. *)
Definition same_host (p p' : Page) : Prop :=
  pathname p' = pathname p /\ bootstrap p' = bootstrap p /\
  now p' = now p /\ timers p' = timers p /\
  listeners p' = listeners p /\ uncaught p' = uncaught p.

End Page.

(** ** Example pages *)

(** Three marked elements among five, the marked ones at different depths
    and not adjacent in tree order. *)
Definition doc_dashboard : Document :=
  [Elem 0 "body" []
     [Elem 1 "a" [("href", "/scan"); ("data-bs-toggle", "tooltip")] [];
      Elem 2 "div" [("class", "card")]
        [Elem 3 "span" [("data-bs-toggle", "tooltip"); ("title", "Up")] []];
      Elem 4 "button" [("title", "Scan"); ("data-bs-toggle", "tooltip")] []]]%nat.


(** No element carries the marker. *)
Definition doc_plain : Document :=
  [Elem 0 "body" [] [Elem 1 "p" [("class", "lead")] []]]%nat.

(** One marked element, and three whose attribute has another value. *)
Definition doc_near_misses : Document :=
  [Elem 0 "body" []
     [Elem 1 "a" [("data-bs-toggle", "modal")] [];
      Elem 2 "a" [("data-bs-toggle", "Tooltip")] [];
      Elem 3 "a" [("data-bs-toggle", "tooltip ")] [];
      Elem 4 "a" [("data-bs-toggle", "tooltip")] []]]%nat.

(** A library that builds every tooltip and touches nothing. *)
Definition quiet_tooltip : @Constructor unit :=
  fun _ d s => (d, s, None).

(** A library that counts its calls and throws on the second. *)
Definition fragile_tooltip : @Constructor nat :=
  fun _ d calls =>
    (d, S calls,
     if Nat.eqb calls 1 then Some (LibraryFault "no title") else None).

(** A page whose reload timer had been armed with [setInterval]. *)
Definition page_with_interval : @Page unit :=
  with_timers [mkTimer Repeating 30000 30000 ReloadArrow]
    (fresh_page "/" doc_plain Undeclared tt).

(** The prefix of [l] up to and including the first element [bad] holds
    of: what a loop that stops at the first failure has visited. *)
Fixpoint upto_first (bad : NodeId -> bool) (l : list NodeId) : list NodeId :=
  match l with
  | [] => []
  | n :: rest => if bad n then [n] else n :: upto_first bad rest
  end.

(** A constructor that throws [fault n] exactly on the elements [bad]
    holds of, whatever the document and its own state. *)
Definition throws_exactly_on {LibState : Type} (ctor : @Constructor LibState)
  (bad : NodeId -> bool) (fault : NodeId -> Fault) : Prop :=
  forall n d s, snd (ctor n d s) = if bad n then Some (fault n) else None.

(** The document and library state after the constructor has run on each
    reference of [l] in turn, each call starting from what the one before
    left. *)
Definition construct_all {LibState : Type} (ctor : @Constructor LibState)
  (l : list NodeId) (d : Document) (s : LibState) : Document * LibState :=
  fold_left (fun ds n => fst (ctor n (fst ds) (snd ds))) l (d, s).

(** A page that includes the script [k] times: the top level runs [k]
    times before the host fires [DOMContentLoaded]. *)
Fixpoint include_script {LibState : Type} (k : nat) (p : @Page LibState)
  : @Page LibState :=
  match k with
  | O => p
  | S k' => include_script k' (fst (script p))
  end.

Definition page_load_copies {LibState : Type} (k : nat) (path : string)
  (d : Document) (b : @Binding LibState) (s : LibState) : @Page LibState :=
  dispatchEvent "DOMContentLoaded" (include_script k (fresh_page path d b s)).

(** A library that throws on the element with identity 3 and on no
    other. *)
Definition picky_tooltip : @Constructor unit :=
  fun n d s =>
    (d, s, if Nat.eqb n 3 then Some (LibraryFault "no title") else None).

(** A library that empties the document on every call and counts its
    calls. *)
Definition wiping_tooltip : @Constructor nat :=
  fun _ _ calls => ([], S calls, None).

(** A root-path page on which the listener runs late, the host clock
    already at 1234 ms. *)
Definition page_late : @Page unit :=
  with_now 1234 (fresh_page "/" doc_plain Undeclared tt).

(** Every call the loop makes on [l] returns normally: the first on the
    document and library state given, each later one on what the call
    before it left. *)
Fixpoint calls_return_normally {LibState : Type} (ctor : @Constructor LibState)
  (l : list NodeId) (d : Document) (s : LibState) : Prop :=
  match l with
  | [] => True
  | n :: rest =>
      snd (ctor n d s) = None /\
      calls_return_normally ctor rest
        (fst (fst (ctor n d s))) (snd (fst (ctor n d s)))
  end.

(** A library whose constructor throws when its positioning dependency is
    not loaded; its state says whether it is. *)
Definition popper_tooltip : @Constructor bool :=
  fun _ d popper =>
    (d, popper, if popper then None else Some (LibraryFault "Popper missing")).

(** ** Lemmas on the model *)

Section Facts.

Context {LibState : Type}.
Implicit Types (p : @Page LibState) (d : Document) (b : @Binding LibState).

Lemma same_host_refl p : same_host p p.
Proof. repeat split. Qed.

Lemma same_host_trans p q r : same_host p q -> same_host q r -> same_host p r.
Proof.
  unfold same_host; intros (A1 & A2 & A3 & A4 & A5 & A6) (B1 & B2 & B3 & B4 & B5 & B6).
  repeat split; congruence.
Qed.

Lemma new_tooltip_absent el p :
  tooltip_constructor (bootstrap p) = None ->
  exists f, new_bootstrap_Tooltip el p = (p, Throw f) /\
            (f = ReferenceError "bootstrap" \/ exists m, f = TypeError m).
Proof.
  unfold new_bootstrap_Tooltip, tooltip_constructor, throw.
  destruct (bootstrap p) as [| |[c|]]; intros H; try discriminate; eauto 6.
Qed.

Lemma new_tooltip_present el p ctor :
  bootstrap p = Namespace (Some ctor) ->
  let r := ctor el (document p) (lib_state p) in
  let p' := with_realm (fst (fst r)) (snd (fst r)) (log_event (EvNewTooltip el) p) in
  new_bootstrap_Tooltip el p =
    (p', match snd r with None => Normal (ControllerFor el) | Some f => Throw f end).
Proof.
  intros H; unfold new_bootstrap_Tooltip; rewrite H; cbn.
  destruct (ctor el (document p) (lib_state p)) as [[d s] [f|]]; reflexivity.
Qed.

Lemma array_map_cons {A B} (f : A -> Js B) x xs p :
  array_map f (x :: xs) p =
    match f x p with
    | (p1, Normal y) =>
        match array_map f xs p1 with
        | (p2, Normal ys) => (p2, Normal (y :: ys))
        | (p2, Throw e) => (p2, Throw e)
        end
    | (p1, Throw e) => (p1, Throw e)
    end.
Proof.
  cbn [array_map]; unfold bind, ret.
  destruct (f x p) as [p1 [y|e]]; [|reflexivity].
  destruct (array_map f xs p1) as [p2 [ys|e]]; reflexivity.
Qed.

(** The loop calls the constructor on a prefix of the array, in order, and
    on the whole array when it completes. *)
Lemma tooltip_loop_prefix (l : list NodeId) : forall p,
  exists done rest,
    l = done ++ rest /\
    same_host p (fst (array_map new_bootstrap_Tooltip l p)) /\
    trace (fst (array_map new_bootstrap_Tooltip l p)) =
      trace p ++ map EvNewTooltip done /\
    match snd (array_map new_bootstrap_Tooltip l p) with
    | Normal _ => rest = []
    | Throw _ => True
    end.
Proof.
  induction l as [|x xs IH]; intros p.
  - exists [], []; cbn; rewrite app_nil_r; auto using same_host_refl.
  - rewrite array_map_cons.
    destruct (tooltip_constructor (bootstrap p)) as [ctor|] eqn:E.
    + assert (B : bootstrap p = Namespace (Some ctor)).
      { unfold tooltip_constructor in E.
        destruct (bootstrap p) as [| |[c|]]; congruence. }
      rewrite (new_tooltip_present x p ctor B); cbn zeta.
      set (r := ctor x (document p) (lib_state p)).
      set (p1 := with_realm _ _ _).
      assert (H1 : same_host p p1) by (repeat split).
      assert (T1 : trace p1 = trace p ++ [EvNewTooltip x]) by reflexivity.
      destruct (snd r) as [f|].
      * exists [x], xs; cbn [fst snd map app]; auto.
      * destruct (IH p1) as (done & rest & L & H & T & C).
        exists (x :: done), rest.
        destruct (array_map new_bootstrap_Tooltip xs p1) as [p2 [cs|f]];
          cbn [fst snd] in *; rewrite T, T1, <- app_assoc, L;
          eauto using same_host_trans.
    + destruct (new_tooltip_absent x p E) as (f & -> & _).
      exists [], (x :: xs); cbn; rewrite app_nil_r; auto using same_host_refl.
Qed.

Lemma tooltip_loop_absent (l : list NodeId) p :
  tooltip_constructor (bootstrap p) = None -> l <> [] ->
  exists f, array_map new_bootstrap_Tooltip l p = (p, Throw f) /\
            (f = ReferenceError "bootstrap" \/ exists m, f = TypeError m).
Proof.
  intros E N; destruct l as [|x xs]; [congruence|].
  rewrite array_map_cons.
  destruct (new_tooltip_absent x p E) as (f & -> & K); eauto.
Qed.

Lemma tooltip_loop_total ctor (l : list NodeId) : forall p,
  bootstrap p = Namespace (Some ctor) -> never_throws ctor ->
  exists cs, snd (array_map new_bootstrap_Tooltip l p) = Normal cs.
Proof.
  induction l as [|x xs IH]; intros p B T; [cbn; eauto|].
  rewrite array_map_cons, (new_tooltip_present x p ctor B); cbn zeta.
  rewrite T.
  set (p1 := with_realm _ _ _).
  destruct (IH p1 B T) as [cs C].
  destruct (array_map new_bootstrap_Tooltip xs p1) as [p2 [ys|e]];
    cbn in *; [eauto | discriminate].
Qed.


Lemma on_DOMContentLoaded_unfold p :
  on_DOMContentLoaded p =
    match array_map new_bootstrap_Tooltip
            (querySelectorAll tooltip_selector (document p))
            (before_tooltips p) with
    | (p', Normal _) => (p', Normal tt)
    | (p', Throw f) => (p', Throw f)
    end.
Proof.
  unfold on_DOMContentLoaded, before_tooltips, after_refresh, bind,
    get_pathname, document_querySelectorAll, slice_call, ret.
  cbn [fst snd]. destruct (String.eqb (pathname p) "/"); reflexivity.
Qed.

Lemma page_load_unfold path d b s :
  page_load path d b s =
    match on_DOMContentLoaded (ready_page path d b s) with
    | (p', Normal _) => p'
    | (p', Throw f) => report f p'
    end.
Proof.
  unfold page_load, dispatchEvent, ready_page; cbn; reflexivity.
Qed.

Lemma before_tooltips_ready path d b s :
  let q := before_tooltips (ready_page path d b s) in
  pathname q = path /\ bootstrap q = b /\ now q = 0 /\
  document q = d /\ lib_state q = s /\
  timers q = (if String.eqb path "/" then [refresh_timer 0] else []) /\
  listeners q = [("DOMContentLoaded", ReadyListener)] /\
  uncaught q = [] /\
  trace q = refresh_steps path ++ [EvQuerySelectorAll tooltip_selector].
Proof.
  unfold before_tooltips, after_refresh, ready_page, refresh_steps; cbn.
  destruct (String.eqb path "/"); cbn; repeat split.
Qed.

(** One page load, field by field: the constructor calls are a prefix
    [done] of the selected references; if nothing was thrown that prefix
    is the whole selection. *)
Lemma page_load_shape path d b s :
  exists done rest,
    querySelectorAll tooltip_selector d = done ++ rest /\
    pathname (page_load path d b s) = path /\
    bootstrap (page_load path d b s) = b /\
    now (page_load path d b s) = 0 /\
    timers (page_load path d b s) =
      (if String.eqb path "/" then [refresh_timer 0] else []) /\
    listeners (page_load path d b s) = [("DOMContentLoaded", ReadyListener)] /\
    trace (page_load path d b s) =
      refresh_steps path ++
      EvQuerySelectorAll tooltip_selector :: map EvNewTooltip done /\
    match snd (on_DOMContentLoaded (ready_page path d b s)) with
    | Normal _ => uncaught (page_load path d b s) = [] /\ rest = []
    | Throw f => uncaught (page_load path d b s) = [f]
    end.
Proof.
  rewrite page_load_unfold, on_DOMContentLoaded_unfold.
  destruct (before_tooltips_ready path d b s)
    as (Q1 & Q2 & Q3 & Q4 & Q5 & Q6 & Q7 & Q8 & Q9).
  set (q := before_tooltips (ready_page path d b s)) in *.
  assert (D : document (ready_page path d b s) = d) by reflexivity.
  rewrite D.
  destruct (tooltip_loop_prefix (querySelectorAll tooltip_selector d) q)
    as (done & rest & L & (H1 & H2 & H3 & H4 & H5 & H6) & T & C).
  exists done, rest.
  destruct (array_map new_bootstrap_Tooltip _ q) as [p' [cs|f]];
    cbn [fst snd report with_uncaught pathname bootstrap now timers
         listeners trace uncaught] in *;
    rewrite T, Q9, <- app_assoc; cbn [app];
    repeat (split; [congruence|]).
  - assumption.
  - rewrite H6, Q8; reflexivity.
Qed.

Lemma construction_targets_app tr1 tr2 :
  construction_targets (tr1 ++ tr2) =
  construction_targets tr1 ++ construction_targets tr2.
Proof.
  induction tr1 as [|[] tr1 IH]; cbn; try rewrite IH; reflexivity.
Qed.

Lemma construction_targets_calls (l : list NodeId) :
  construction_targets (map EvNewTooltip l) = l.
Proof. induction l; cbn; congruence. Qed.

Lemma construction_targets_refresh path :
  construction_targets (refresh_steps path) = [].
Proof. unfold refresh_steps; destruct (String.eqb path "/"); reflexivity. Qed.

Lemma filter_reload_calls (l : list NodeId) :
  filter is_reload (map EvNewTooltip l) = [].
Proof. induction l; cbn; auto. Qed.

Lemma filter_reload_refresh path :
  filter is_reload (refresh_steps path) = [].
Proof. unfold refresh_steps; destruct (String.eqb path "/"); reflexivity. Qed.

(** The constructor calls of a page load are a prefix of the selection. *)
Lemma page_load_constructions path d b s :
  exists rest,
    querySelectorAll tooltip_selector d =
      constructions (page_load path d b s) ++ rest /\
    match snd (on_DOMContentLoaded (ready_page path d b s)) with
    | Normal _ => uncaught (page_load path d b s) = [] /\ rest = []
    | Throw f => uncaught (page_load path d b s) = [f]
    end.
Proof.
  destruct (page_load_shape path d b s)
    as (done & rest & L & _ & _ & _ & _ & _ & T & U).
  exists rest; unfold constructions; rewrite T.
  rewrite construction_targets_app, construction_targets_refresh; cbn.
  rewrite construction_targets_calls; auto.
Qed.

(** No reload request is issued while the listener runs. *)
Lemma page_load_no_reload path d b s :
  filter is_reload (trace (page_load path d b s)) = [].
Proof.
  destruct (page_load_shape path d b s)
    as (done & rest & _ & _ & _ & _ & _ & _ & T & _).
  rewrite T, filter_app, filter_reload_refresh; cbn.
  apply filter_reload_calls.
Qed.

(** *** The timer queue *)

Lemma host_tick_idle p :
  timers p = [] ->
  timers (host_tick p) = [] /\ trace (host_tick p) = trace p /\
  now (host_tick p) = now p + 1.
Proof. intros E; unfold host_tick; rewrite E; cbn; auto. Qed.

Lemma host_run_idle ms : forall p,
  timers p = [] ->
  timers (host_run ms p) = [] /\ trace (host_run ms p) = trace p.
Proof.
  induction ms as [|k IH]; intros p E; cbn [host_run]; [auto|].
  destruct (host_tick_idle p E) as (E1 & T1 & _).
  destruct (IH (host_tick p) E1) as (E2 & T2).
  split; congruence.
Qed.

(** A single one-shot reload timer: nothing happens before it is due; when
    it is due the reload is requested once and the queue is empty. *)
Lemma host_tick_one_shot p dl du :
  timers p = [mkTimer OneShot dl du ReloadArrow] ->
  now (host_tick p) = now p + 1 /\
  (now p + 1 < du ->
   timers (host_tick p) = timers p /\ trace (host_tick p) = trace p) /\
  (du <= now p + 1 ->
   timers (host_tick p) = [] /\ trace (host_tick p) = trace p ++ [EvReload]).
Proof.
  intros E; unfold host_tick; rewrite E; cbn [fire_due due kind callback].
  destruct (Z.leb_spec du (now p + 1)); cbn; repeat split; auto; lia.
Qed.

Lemma host_run_one_shot ms : forall p dl du,
  timers p = [mkTimer OneShot dl du ReloadArrow] ->
  now p < du ->
  (now p + Z.of_nat ms < du ->
   timers (host_run ms p) = timers p /\ trace (host_run ms p) = trace p) /\
  (du <= now p + Z.of_nat ms ->
   timers (host_run ms p) = [] /\
   trace (host_run ms p) = trace p ++ [EvReload]).
Proof.
  induction ms as [|k IH]; intros p dl du E N.
  - cbn [host_run]; split; intros; [auto | lia].
  - cbn [host_run].
    destruct (host_tick_one_shot p dl du E) as (C & Early & Late).
    destruct (Z.lt_ge_cases (now p + 1) du) as [Lt|Ge].
    + destruct (Early Lt) as (E1 & T1).
      assert (E1' : timers (host_tick p) = [mkTimer OneShot dl du ReloadArrow])
        by congruence.
      assert (N1 : now (host_tick p) < du) by lia.
      destruct (IH (host_tick p) dl du E1' N1) as (A & B).
      rewrite C in A, B.
      split; intros H.
      * destruct A as (A1 & A2); [lia | split; congruence].
      * destruct B as (B1 & B2); [lia | split; congruence].
    + destruct (Late Ge) as (E1 & T1).
      destruct (host_run_idle k (host_tick p) E1) as (E2 & T2).
      split; intros H; [lia | split; congruence].
Qed.

End Facts.

(** ** The auto-refresh timer *)

Section Refresh.

Context {LibState : Type}.
Implicit Types (d : Document) (b : @Binding LibState) (s : LibState).

Lemma page_load_timers path d b s :
  timers (page_load path d b s) =
    if String.eqb path "/" then [refresh_timer 0] else [].
Proof.
  destruct (page_load_shape path d b s)
    as (done & rest & _ & _ & _ & _ & T & _); exact T.
Qed.

Lemma page_load_reloads path d b s (ms : nat) :
  reloads (host_run ms (page_load path d b s)) =
    if (String.eqb path "/" && (30000 <=? Z.of_nat ms))%bool then 1%nat else 0%nat.
Proof.
  unfold reloads.
  pose proof (page_load_timers path d b s) as T.
  pose proof (page_load_no_reload path d b s) as R.
  destruct (page_load_shape path d b s)
    as (done & rest & _ & _ & _ & N & _ & _ & _ & _).
  destruct (String.eqb path "/"); cbn [andb].
  - destruct (host_run_one_shot ms (page_load path d b s) 30000 (0 + 30000) T)
      as (Early & Late); [lia|].
    rewrite N in Early, Late.
    destruct (Z.leb_spec 30000 (Z.of_nat ms)).
    + destruct Late as (_ & ->); [lia|].
      rewrite filter_app, R; reflexivity.
    + destruct Early as (_ & ->); [lia|].
      rewrite R; reflexivity.
  - destruct (host_run_idle ms (page_load path d b s) T) as (_ & ->).
    rewrite R; reflexivity.
Qed.

(** C1: a page load arms a reload timer exactly when the path is the
    string "/"; the timer it arms has delay 30000 ms and runs the reload
    callback, so a reload has been requested after [ms] milliseconds
    exactly when the path is "/" and [ms] is at least 30000.  For any other
    path nothing is armed and no reload is ever requested. *)
Theorem reload_scheduled_iff_root_path path d b s :
  ((exists t, In t (timers (page_load path d b s))) <-> path = "/") /\
  timers (page_load path d b s) =
    (if String.eqb path "/"
     then [mkTimer OneShot 30000 30000 ReloadArrow] else []) /\
  (forall ms : nat,
     reloads (host_run ms (page_load path d b s)) = 1%nat <->
     path = "/" /\ 30000 <= Z.of_nat ms) /\
  (forall ms : nat,
     reloads (host_run ms (page_load path d b s)) = 0%nat <->
     path <> "/" \/ Z.of_nat ms < 30000).
Proof.
  pose proof (page_load_timers path d b s) as T.
  pose proof (page_load_reloads path d b s) as R.
  split; [|split; [|split]].
  - rewrite T; destruct (String.eqb_spec path "/") as [E|NE]; split.
    + intros _; exact E.
    + intros _; eexists; left; reflexivity.
    + intros (t & []).
    + intros E; contradiction.
  - rewrite T; reflexivity.
  - intros ms; rewrite R.
    destruct (String.eqb_spec path "/"), (Z.leb_spec 30000 (Z.of_nat ms));
      cbn [andb]; split; try discriminate; try tauto; try lia.
  - intros ms; rewrite R.
    destruct (String.eqb_spec path "/"), (Z.leb_spec 30000 (Z.of_nat ms));
      cbn [andb]; split; try discriminate; try tauto; try lia.
    intros [F|F]; [contradiction | lia].
Qed.

(** C2: the timer a page load arms is a one-shot timer, never a repeating
    one; however long the page stays, at most one reload is requested, and
    once it has been requested no timer is armed any more. *)
Theorem reload_fires_at_most_once path d b s (ms : nat) :
  Forall (fun t => kind t = OneShot) (timers (page_load path d b s)) /\
  (reloads (host_run ms (page_load path d b s)) <= 1)%nat /\
  (reloads (host_run ms (page_load path d b s)) = 1%nat ->
   timers (host_run ms (page_load path d b s)) = []).
Proof.
  pose proof (page_load_timers path d b s) as T.
  pose proof (page_load_reloads path d b s ms) as R.
  destruct (page_load_shape path d b s)
    as (done & rest & _ & _ & _ & N & _ & _ & _ & _).
  repeat split.
  - rewrite T; destruct (String.eqb path "/"); repeat constructor.
  - rewrite R; destruct (_ && _)%bool; lia.
  - intros H; rewrite R in H.
    destruct (String.eqb path "/"); cbn [andb] in H; [|discriminate].
    destruct (Z.leb_spec 30000 (Z.of_nat ms)); [|discriminate].
    destruct (host_run_one_shot ms (page_load path d b s) 30000 (0 + 30000) T)
      as (_ & Late); [lia|].
    apply Late; lia.
Qed.

End Refresh.

(** ** The tooltip initializer *)

Section Tooltips.

Context {LibState : Type}.
Implicit Types (p q : @Page LibState) (d : Document) (b : @Binding LibState)
  (s : LibState).

(** *** Selection *)

Lemma distinct_nodes_inj (l : list Element) (x y : Element) :
  NoDup (map node_id l) -> In x l -> In y l -> node_id x = node_id y -> x = y.
Proof.
  induction l as [|a l IH]; cbn; intros N Hx Hy E; [contradiction|].
  inversion N as [|? ? Na Nl]; subst.
  destruct Hx as [<-|Hx], Hy as [<-|Hy]; auto.
  - exfalso; apply Na; rewrite E; apply in_map; assumption.
  - exfalso; apply Na; rewrite <- E; apply in_map; assumption.
Qed.

Lemma distinct_nodes_filter (f : Element -> bool) (l : list Element) :
  NoDup (map node_id l) -> NoDup (map node_id (filter f l)).
Proof.
  induction l as [|a l IH]; cbn; intros N; [constructor|].
  inversion N as [|? ? Na Nl]; subst.
  destruct (f a); cbn; auto.
  constructor; auto.
  intros H; apply Na.
  apply in_map_iff in H; destruct H as (e & E & H).
  apply filter_In in H; destruct H as (H & _).
  rewrite <- E; apply in_map; assumption.
Qed.

(** Under distinct nodes, the selected references are those of the
    matching elements and of no other element. *)
Lemma selected_iff_matches sel d (e : Element) :
  distinct_nodes d -> In e (all_elements d) ->
  (In (node_id e) (querySelectorAll sel d) <-> matches sel e = true).
Proof.
  intros N H; unfold querySelectorAll; split.
  - intros I; apply in_map_iff in I; destruct I as (e' & E & I).
    apply filter_In in I; destruct I as (I & M).
    rewrite <- (distinct_nodes_inj _ _ _ N I H E); assumption.
  - intros M; apply in_map, filter_In; auto.
Qed.

Lemma marker_decides_match (e : Element) :
  matches tooltip_selector e =
    match marker_of e with
    | Some v => String.eqb v "tooltip"
    | None => false
    end.
Proof. reflexivity. Qed.


(** *** The loop does not look at the host's side of the page *)

Lemma tooltip_loop_realm (l : list NodeId) : forall p q,
  document p = document q -> lib_state p = lib_state q ->
  bootstrap p = bootstrap q ->
  snd (array_map new_bootstrap_Tooltip l p) =
    snd (array_map new_bootstrap_Tooltip l q) /\
  document (fst (array_map new_bootstrap_Tooltip l p)) =
    document (fst (array_map new_bootstrap_Tooltip l q)) /\
  lib_state (fst (array_map new_bootstrap_Tooltip l p)) =
    lib_state (fst (array_map new_bootstrap_Tooltip l q)) /\
  exists done,
    trace (fst (array_map new_bootstrap_Tooltip l p)) =
      trace p ++ map EvNewTooltip done /\
    trace (fst (array_map new_bootstrap_Tooltip l q)) =
      trace q ++ map EvNewTooltip done.
Proof.
  induction l as [|x xs IH]; intros p q D S B.
  - cbn; repeat split; auto. exists []; cbn; rewrite !app_nil_r; auto.
  - rewrite !array_map_cons.
    destruct (tooltip_constructor (bootstrap p)) as [ctor|] eqn:E.
    + assert (Bp : bootstrap p = Namespace (Some ctor)).
      { unfold tooltip_constructor in E.
        destruct (bootstrap p) as [| |[c|]]; congruence. }
      assert (Bq : bootstrap q = Namespace (Some ctor)) by congruence.
      rewrite (new_tooltip_present x p ctor Bp), (new_tooltip_present x q ctor Bq).
      cbn zeta; rewrite <- D, <- S.
      set (r := ctor x (document p) (lib_state p)).
      set (p1 := with_realm _ _ (log_event _ p)).
      set (q1 := with_realm _ _ (log_event _ q)).
      destruct (snd r) as [f|].
      * cbn [fst snd]; repeat split. exists [x]; auto.
      * destruct (IH p1 q1) as (C & D1 & S1 & done & Tp & Tq);
          [reflexivity | reflexivity | exact B |].
        destruct (array_map new_bootstrap_Tooltip xs p1) as [p2 [cs|f]],
                 (array_map new_bootstrap_Tooltip xs q1) as [q2 [cs'|f']];
          cbn [fst snd] in *; try discriminate;
          (repeat split; [congruence | assumption | assumption |]);
          exists (x :: done); rewrite Tp, Tq; cbn; rewrite <- !app_assoc; auto.
    + assert (E' : tooltip_constructor (bootstrap q) = None) by congruence.
      destruct (new_tooltip_absent x p E) as (f & Hp & _).
      destruct (new_tooltip_absent x q E') as (f' & Hq & _).
      assert (f = f').
      { unfold new_bootstrap_Tooltip, throw in Hp, Hq; rewrite <- B in Hq.
        destruct (bootstrap p) as [| |[c|]]; cbn in E; congruence. }
      subst f'; rewrite Hp, Hq; cbn [fst snd]; repeat split; auto.
      exists []; cbn; rewrite !app_nil_r; auto.
Qed.

(** A page load is the loop over the selection, run on the page as the
    first statement and the query left it. *)
Lemma page_load_tooltips path d b s :
  page_load path d b s =
    match array_map new_bootstrap_Tooltip (querySelectorAll tooltip_selector d)
            (before_tooltips (ready_page path d b s)) with
    | (p', Normal _) => p'
    | (p', Throw f) => report f p'
    end.
Proof.
  rewrite page_load_unfold, on_DOMContentLoaded_unfold.
  change (document (ready_page path d b s)) with d.
  destruct (array_map _ _ _) as [p' [cs|f]]; reflexivity.
Qed.

(** *** How the listener completes *)

Lemma listener_completes path d ctor s :
  never_throws ctor ->
  snd (on_DOMContentLoaded (ready_page path d (Namespace (Some ctor)) s)) =
    Normal tt.
Proof.
  intros T; rewrite on_DOMContentLoaded_unfold.
  destruct (before_tooltips_ready path d (Namespace (Some ctor)) s)
    as (_ & B & _).
  destruct (tooltip_loop_total ctor
              (querySelectorAll tooltip_selector
                 (document (ready_page path d (Namespace (Some ctor)) s)))
              _ B T) as [cs C].
  destruct (array_map _ _ _) as [p' [ys|e]]; cbn in *;
    [reflexivity | discriminate].
Qed.

Lemma listener_throws path d b s :
  tooltip_constructor b = None -> marked d <> [] ->
  exists f,
    on_DOMContentLoaded (ready_page path d b s) =
      (before_tooltips (ready_page path d b s), Throw f) /\
    (f = ReferenceError "bootstrap" \/ exists m, f = TypeError m).
Proof.
  intros E N; rewrite on_DOMContentLoaded_unfold.
  destruct (before_tooltips_ready path d b s) as (_ & B & _).
  change (document (ready_page path d b s)) with d.
  assert (N' : querySelectorAll tooltip_selector d <> []).
  { unfold querySelectorAll; fold (marked d).
    destruct (marked d); [congruence | discriminate]. }
  rewrite <- B in E.
  destruct (tooltip_loop_absent _ _ E N') as (f & -> & K); eauto.
Qed.

Lemma listener_idle path d b s :
  marked d = [] ->
  on_DOMContentLoaded (ready_page path d b s) =
    (before_tooltips (ready_page path d b s), Normal tt).
Proof.
  intros E; rewrite on_DOMContentLoaded_unfold.
  change (document (ready_page path d b s)) with d.
  unfold querySelectorAll; fold (marked d); rewrite E; reflexivity.
Qed.

(** *** Claims *)

Lemma tooltip_loop_returns ctor (l : list NodeId) : forall p,
  bootstrap p = Namespace (Some ctor) ->
  calls_return_normally ctor l (document p) (lib_state p) ->
  exists cs, snd (array_map new_bootstrap_Tooltip l p) = Normal cs.
Proof.
  induction l as [|x xs IH]; intros p B R; [cbn; eauto|].
  destruct R as (R1 & R2).
  rewrite array_map_cons, (new_tooltip_present x p ctor B); cbn zeta.
  rewrite R1.
  set (p1 := with_realm _ _ _).
  destruct (IH p1 B R2) as [cs C].
  destruct (array_map new_bootstrap_Tooltip xs p1) as [p2 [ys|e]];
    cbn in *; [eauto | discriminate].
Qed.

(** The listener completes whenever the constructor is there and each call
    the loop makes on the selection returns normally. *)
Lemma listener_completes_when_calls_return path d ctor s :
  calls_return_normally ctor (querySelectorAll tooltip_selector d) d s ->
  snd (on_DOMContentLoaded (ready_page path d (Namespace (Some ctor)) s)) =
    Normal tt.
Proof.
  intros R; rewrite on_DOMContentLoaded_unfold.
  destruct (before_tooltips_ready path d (Namespace (Some ctor)) s)
    as (_ & B & _ & D & S & _).
  change (document (ready_page path d (Namespace (Some ctor)) s)) with d.
  set (q := before_tooltips _) in *.
  assert (R' : calls_return_normally ctor
                 (querySelectorAll tooltip_selector d)
                 (document q) (lib_state q)) by (rewrite D, S; exact R).
  destruct (tooltip_loop_returns ctor _ q B R') as [cs C].
  destruct (array_map _ _ _) as [p' [ys|e]]; cbn in *;
    [reflexivity | discriminate].
Qed.

(** C3, as amended: when nothing is thrown during the page load, that is,
    the constructor is there when it is needed and every call made to it
    returns normally so that the listener completes, the page load makes
    exactly one constructor call per marked element, with that element as
    the argument: N calls for N marked elements among N + M, none of them
    on an unmarked element, and nothing is reported.  This holds for
    every [bootstrap] binding and every library. *)
Theorem one_construction_per_marked_element path d b s :
  snd (on_DOMContentLoaded (ready_page path d b s)) = Normal tt ->
  distinct_nodes d ->
  constructions (page_load path d b s) = map node_id (marked d) /\
  length (constructions (page_load path d b s)) = length (marked d) /\
  (length (marked d) + length (unmarked d))%nat = length (all_elements d) /\
  (forall e, In e (marked d) ->
     count_occ Nat.eq_dec (constructions (page_load path d b s))
       (node_id e) = 1%nat) /\
  (forall e, In e (unmarked d) ->
     count_occ Nat.eq_dec (constructions (page_load path d b s))
       (node_id e) = 0%nat) /\
  uncaught (page_load path d b s) = [].
Proof.
  intros T N.
  destruct (page_load_constructions path d b s) as (rest & L & U).
  rewrite T in U; destruct U as (U & ->).
  rewrite app_nil_r in L.
  assert (C : constructions (page_load path d b s) = map node_id (marked d))
    by (symmetry; exact L).
  rewrite C.
  split; [reflexivity|].
  split; [apply length_map|].
  split; [apply filter_length|].
  split; [|split; [|exact U]].
  - intros e I.
    apply NoDup_count_occ'; [apply distinct_nodes_filter, N|].
    apply in_map; assumption.
  - intros e I; apply filter_In in I; destruct I as (I & M).
    apply count_occ_not_In; intros H.
    apply (selected_iff_matches tooltip_selector d e N I) in H.
    rewrite H in M; discriminate.
Qed.

(** C4: the i-th constructor call of a page load, whenever there is one,
    is on the i-th marked element in tree order. *)
Theorem construction_order_is_document_order path d b s (i : nat) (n : NodeId) :
  nth_error (constructions (page_load path d b s)) i = Some n ->
  exists e, nth_error (marked d) i = Some e /\ node_id e = n.
Proof.
  intros H.
  destruct (page_load_constructions path d b s) as (rest & L & _).
  assert (K : nth_error (map node_id (marked d)) i = Some n).
  { change (map node_id (marked d)) with (querySelectorAll tooltip_selector d).
    rewrite L, nth_error_app1; [assumption|].
    apply nth_error_Some; congruence. }
  rewrite nth_error_map in K.
  destruct (nth_error (marked d) i) as [e|]; [|discriminate].
  exists e; split; [reflexivity | cbn in K; congruence].
Qed.

(** C5: when no element carries the marker, a page load makes no
    constructor call, the listener completes normally and nothing is
    reported to the host, whatever [bootstrap] is, also when it is not
    there at all. *)
Theorem no_marked_element_no_call_no_fault path d b s :
  marked d = [] ->
  constructions (page_load path d b s) = [] /\
  snd (on_DOMContentLoaded (ready_page path d b s)) = Normal tt /\
  uncaught (page_load path d b s) = [].
Proof.
  intros E.
  destruct (page_load_constructions path d b s) as (rest & L & U).
  rewrite (listener_idle path d b s E) in *; cbn [snd] in U.
  destruct U as (U & ->).
  unfold querySelectorAll in L; fold (marked d) in L; rewrite E in L.
  cbn in L; symmetry in L; apply app_eq_nil in L; destruct L as (L & _).
  auto.
Qed.

(** C6: when [bootstrap.Tooltip] is not there and at least one element is
    marked, the listener throws (a ReferenceError or a TypeError) at the
    first marked element; the throw leaves the listener, exactly one fault
    is reported to the host, and no constructor call is made for any
    element. *)
Theorem missing_library_is_an_uncaught_fault path d b s :
  tooltip_constructor b = None -> marked d <> [] ->
  exists f,
    snd (on_DOMContentLoaded (ready_page path d b s)) = Throw f /\
    (f = ReferenceError "bootstrap" \/ exists m, f = TypeError m) /\
    uncaught (page_load path d b s) = [f] /\
    constructions (page_load path d b s) = [].
Proof.
  intros E N.
  destruct (listener_throws path d b s E N) as (f & R & K).
  exists f.
  destruct (before_tooltips_ready path d b s) as (_ & _ & _ & _ & _ & _ & _ & Q8 & Q9).
  rewrite page_load_unfold, R; cbn [snd].
  split; [reflexivity|]. split; [exact K|]. split.
  - unfold report; cbn [with_uncaught uncaught]; rewrite Q8; reflexivity.
  - unfold constructions, report; cbn [with_uncaught trace].
    rewrite Q9, construction_targets_app, construction_targets_refresh.
    reflexivity.
Qed.




Lemma page_load_path_irrelevant path path' d b s :
  constructions (page_load path d b s) = constructions (page_load path' d b s) /\
  uncaught (page_load path d b s) = uncaught (page_load path' d b s) /\
  document (page_load path d b s) = document (page_load path' d b s) /\
  lib_state (page_load path d b s) = lib_state (page_load path' d b s).
Proof.
  rewrite !page_load_tooltips.
  destruct (before_tooltips_ready path d b s)
    as (_ & B & _ & D & S & _ & _ & U & T).
  destruct (before_tooltips_ready path' d b s)
    as (_ & B' & _ & D' & S' & _ & _ & U' & T').
  set (q := before_tooltips (ready_page path d b s)) in *.
  set (q' := before_tooltips (ready_page path' d b s)) in *.
  set (l := querySelectorAll tooltip_selector d).
  destruct (tooltip_loop_realm l q q') as (C & Dr & Sr & done & Tr & Tr');
    try congruence.
  destruct (tooltip_loop_prefix l q) as (_ & _ & _ & (_ & _ & _ & _ & _ & H) & _).
  destruct (tooltip_loop_prefix l q') as (_ & _ & _ & (_ & _ & _ & _ & _ & H') & _).
  destruct (array_map new_bootstrap_Tooltip l q) as [p1 [cs|f]],
           (array_map new_bootstrap_Tooltip l q') as [p1' [cs'|f']];
    cbn [fst snd] in *; try discriminate;
    unfold constructions, report;
    cbn [with_uncaught trace uncaught document lib_state];
    rewrite Tr, Tr', T, T', !construction_targets_app,
      !construction_targets_refresh;
    repeat split; congruence.
Qed.

(** C8: the two behaviours share nothing.  With the document and the
    library fixed, the constructor calls, what is reported, and what the
    library did are the same for any two paths; with the path fixed, the
    armed timer and the reloads requested after any time are the same for
    any two documents and libraries. *)
Theorem refresh_and_tooltips_are_independent
  path path' d d' b b' s s' (ms : nat) :
  constructions (page_load path d b s) = constructions (page_load path' d b s) /\
  uncaught (page_load path d b s) = uncaught (page_load path' d b s) /\
  document (page_load path d b s) = document (page_load path' d b s) /\
  lib_state (page_load path d b s) = lib_state (page_load path' d b s) /\
  timers (page_load path d b s) = timers (page_load path d' b' s') /\
  reloads (host_run ms (page_load path d b s)) =
    reloads (host_run ms (page_load path d' b' s')).
Proof.
  destruct (page_load_path_irrelevant path path' d b s) as (A & B & C & D).
  repeat (split; [assumption|]).
  rewrite !page_load_timers, !page_load_reloads; auto.
Qed.

Lemma phases_in_order (A B : list Event) (i j : nat) (ei ej : Event) :
  Forall (fun e => is_construction e = false) A ->
  Forall (fun e => is_refresh_step e = false) B ->
  nth_error (A ++ B) i = Some ei -> nth_error (A ++ B) j = Some ej ->
  is_refresh_step ei = true -> is_construction ej = true ->
  (i < j)%nat.
Proof.
  intros FA FB Hi Hj Ri Cj.
  rewrite Forall_forall in FA, FB.
  destruct (Nat.lt_ge_cases i (length A)) as [Li|Gi].
  - destruct (Nat.lt_ge_cases j (length A)) as [Lj|Gj]; [|lia].
    rewrite nth_error_app1 in Hj by assumption.
    apply nth_error_In, FA in Hj; congruence.
  - rewrite nth_error_app2 in Hi by assumption.
    apply nth_error_In, FB in Hi; congruence.
Qed.

(** C9: the one listener runs its two parts one after the other: the trace
    of a page load is the path read, then the arming of the timer when the
    path is "/", then the query, then the constructor calls; every step of
    the refresh part comes before every constructor call, and the reload
    callback does not run while the listener does. *)
Theorem refresh_completes_before_tooltips path d b s :
  listeners (page_load path d b s) = [("DOMContentLoaded", ReadyListener)] /\
  trace (page_load path d b s) =
    refresh_steps path ++
    EvQuerySelectorAll tooltip_selector ::
    map EvNewTooltip (constructions (page_load path d b s)) /\
  (forall i j ei ej,
     nth_error (trace (page_load path d b s)) i = Some ei ->
     nth_error (trace (page_load path d b s)) j = Some ej ->
     is_refresh_step ei = true -> is_construction ej = true ->
     (i < j)%nat) /\
  ~ In EvReload (trace (page_load path d b s)).
Proof.
  destruct (page_load_shape path d b s)
    as (done & rest & _ & _ & _ & _ & _ & L & T & _).
  assert (C : constructions (page_load path d b s) = done).
  { unfold constructions; rewrite T.
    rewrite construction_targets_app, construction_targets_refresh; cbn.
    apply construction_targets_calls. }
  split; [exact L|]. split; [rewrite C; exact T|]. split.
  - intros i j ei ej; rewrite T; apply phases_in_order.
    + unfold refresh_steps; destruct (String.eqb path "/"); repeat constructor.
    + constructor; [reflexivity|].
      apply Forall_forall; intros e I.
      apply in_map_iff in I; destruct I as (n & <- & _); reflexivity.
  - intros I.
    assert (I' : In EvReload (filter is_reload (trace (page_load path d b s))))
      by (apply filter_In; auto).
    rewrite page_load_no_reload in I'; destruct I'.
Qed.

(** C10: an element whose [data-bs-toggle] attribute is there with a value
    other than exactly "tooltip" gets no constructor call. *)
Theorem other_marker_values_get_no_tooltip path d b s (e : Element) (v : string) :
  distinct_nodes d -> In e (all_elements d) ->
  getAttribute (attributes e) "data-bs-toggle" = Some v -> v <> "tooltip" ->
  ~ In (node_id e) (constructions (page_load path d b s)).
Proof.
  intros N I A V H.
  destruct (page_load_constructions path d b s) as (rest & L & _).
  assert (S : In (node_id e) (querySelectorAll tooltip_selector d))
    by (rewrite L; apply in_or_app; auto).
  apply (selected_iff_matches tooltip_selector d e N I) in S.
  rewrite marker_decides_match in S; unfold marker_of in S; rewrite A in S.
  apply String.eqb_eq in S; contradiction.
Qed.

End Tooltips.

(** ** The model on the example pages *)

Example root_path_reloads_after_30s :
  reloads (host_run (Z.to_nat 29999)
             (page_load "/" doc_plain (@Undeclared unit) tt)) = 0%nat /\
  reloads (host_run (Z.to_nat 30000)
             (page_load "/" doc_plain (@Undeclared unit) tt)) = 1%nat /\
  reloads (host_run (Z.to_nat 90000)
             (page_load "/" doc_plain (@Undeclared unit) tt)) = 1%nat.
Proof. vm_compute; auto. Qed.

Example other_paths_never_reload :
  timers (page_load "/scan" doc_plain (@Undeclared unit) tt) = [] /\
  timers (page_load "/results/1" doc_plain (@Undeclared unit) tt) = [] /\
  timers (page_load "//" doc_plain (@Undeclared unit) tt) = [] /\
  reloads (host_run (Z.to_nat 60000)
             (page_load "/dashboard" doc_plain (@Undeclared unit) tt)) = 0%nat.
Proof. vm_compute; auto. Qed.

(** The host does tell the two kinds of timer apart. *)
Example interval_timer_reloads_twice :
  reloads (host_run (Z.to_nat 60000) page_with_interval) = 2%nat.
Proof. vm_compute; reflexivity. Qed.

Example three_marked_two_unmarked :
  constructions
    (page_load "/" doc_dashboard (Namespace (Some quiet_tooltip)) tt) =
    [1; 3; 4]%nat /\
  length (unmarked doc_dashboard) = 2%nat.
Proof. vm_compute; auto. Qed.

Example second_call_throws :
  constructions
    (page_load "/" doc_dashboard (Namespace (Some fragile_tooltip)) 0%nat) =
    [1; 3]%nat /\
  uncaught
    (page_load "/" doc_dashboard (Namespace (Some fragile_tooltip)) 0%nat) =
    [LibraryFault "no title"].
Proof. vm_compute; auto. Qed.

Example near_misses_selected :
  querySelectorAll tooltip_selector doc_near_misses = [4]%nat.
Proof. reflexivity. Qed.

(** A library outside [never_throws] whose calls all return in this run. *)
Example popper_loaded_calls_return :
  calls_return_normally popper_tooltip
    (querySelectorAll tooltip_selector doc_dashboard) doc_dashboard true /\
  ~ never_throws popper_tooltip.
Proof.
  split; [cbn; auto|].
  intros H; specialize (H 0%nat [] false); discriminate.
Qed.

Lemma doc_dashboard_distinct : distinct_nodes doc_dashboard.
Proof.
  unfold distinct_nodes; cbn.
  repeat (constructor; [cbn; intuition discriminate|]); constructor.
Qed.

Lemma doc_near_misses_distinct : distinct_nodes doc_near_misses.
Proof.
  unfold distinct_nodes; cbn.
  repeat (constructor; [cbn; intuition discriminate|]); constructor.
Qed.

Lemma quiet_tooltip_never_throws : never_throws quiet_tooltip.
Proof. intros n d s; reflexivity. Qed.



(** C3 as stated fails without the library: three elements are marked and
    no constructor call is made. *)
Lemma no_library_no_construction :
  length (marked doc_dashboard) = 3%nat /\
  length (unmarked doc_dashboard) = 2%nat /\
  constructions (page_load "/" doc_dashboard (@Undeclared unit) tt) = [] /\
  length (constructions (page_load "/" doc_dashboard (@Undeclared unit) tt))
    <> length (marked doc_dashboard).
Proof. vm_compute; repeat split; discriminate. Qed.

Lemma one_construction_per_marked_element_witness :
  snd (on_DOMContentLoaded
         (ready_page "/" doc_dashboard (Namespace (Some popper_tooltip)) true)) =
    Normal tt /\
  distinct_nodes doc_dashboard /\
  constructions
    (page_load "/" doc_dashboard (Namespace (Some popper_tooltip)) true) =
    map node_id (marked doc_dashboard).
Proof.
  split; [reflexivity|].
  split; [exact doc_dashboard_distinct|].
  exact (proj1 (one_construction_per_marked_element
                  "/" doc_dashboard (Namespace (Some popper_tooltip)) true
                  eq_refl doc_dashboard_distinct)).
Defined.

Lemma construction_order_is_document_order_witness :
  nth_error
    (constructions
       (page_load "/" doc_dashboard (Namespace (Some fragile_tooltip)) 0%nat))
    1 = Some 3%nat /\
  exists e, nth_error (marked doc_dashboard) 1 = Some e /\ node_id e = 3%nat.
Proof.
  split; [reflexivity|].
  apply (construction_order_is_document_order
           "/" doc_dashboard (Namespace (Some fragile_tooltip)) 0%nat 1 3%nat).
  reflexivity.
Defined.

Lemma no_marked_element_no_call_no_fault_witness :
  marked doc_plain = [] /\
  constructions (page_load "/scan" doc_plain (@Undeclared unit) tt) = [] /\
  snd (on_DOMContentLoaded (ready_page "/scan" doc_plain (@Undeclared unit) tt)) =
    Normal tt /\
  uncaught (page_load "/scan" doc_plain (@Undeclared unit) tt) = [].
Proof.
  split; [reflexivity|].
  apply (no_marked_element_no_call_no_fault
           "/scan" doc_plain (@Undeclared unit) tt).
  reflexivity.
Defined.

Lemma missing_library_is_an_uncaught_fault_witness :
  tooltip_constructor (@Undeclared unit) = None /\
  marked doc_dashboard <> [] /\
  exists f,
    snd (on_DOMContentLoaded
           (ready_page "/" doc_dashboard (@Undeclared unit) tt)) = Throw f /\
    (f = ReferenceError "bootstrap" \/ exists m, f = TypeError m) /\
    uncaught (page_load "/" doc_dashboard (@Undeclared unit) tt) = [f] /\
    constructions (page_load "/" doc_dashboard (@Undeclared unit) tt) = [].
Proof.
  split; [reflexivity|].
  split; [discriminate|].
  apply (missing_library_is_an_uncaught_fault
           "/" doc_dashboard (@Undeclared unit) tt);
    [reflexivity | discriminate].
Defined.


Lemma other_marker_values_get_no_tooltip_witness :
  distinct_nodes doc_near_misses /\
  In (Elem 2%nat "a" [("data-bs-toggle", "Tooltip")] [])
     (all_elements doc_near_misses) /\
  "Tooltip" <> "tooltip" /\
  ~ In 2%nat
      (constructions
         (page_load "/" doc_near_misses (Namespace (Some quiet_tooltip)) tt)).
Proof.
  split; [exact doc_near_misses_distinct|].
  split; [cbn; auto|].
  split; [discriminate|].
  apply (other_marker_values_get_no_tooltip
           "/" doc_near_misses (Namespace (Some quiet_tooltip)) tt
           (Elem 2%nat "a" [("data-bs-toggle", "Tooltip")] []) "Tooltip"
           doc_near_misses_distinct);
    [cbn; auto | reflexivity | discriminate].
Defined.

(** ** The listener on any page, and the loop in full *)

Section Listener.

Context {LibState : Type}.
Implicit Types (p q : @Page LibState) (d : Document) (b : @Binding LibState)
  (s : LibState).

Lemma before_tooltips_any p :
  pathname (before_tooltips p) = pathname p /\
  bootstrap (before_tooltips p) = bootstrap p /\
  now (before_tooltips p) = now p /\
  document (before_tooltips p) = document p /\
  lib_state (before_tooltips p) = lib_state p /\
  timers (before_tooltips p) =
    timers p ++
    (if String.eqb (pathname p) "/" then [refresh_timer (now p)] else []) /\
  listeners (before_tooltips p) = listeners p /\
  uncaught (before_tooltips p) = uncaught p /\
  trace (before_tooltips p) =
    trace p ++ refresh_steps (pathname p) ++ [EvQuerySelectorAll tooltip_selector].
Proof.
  unfold before_tooltips, after_refresh, refresh_steps.
  destruct (String.eqb (pathname p) "/"); cbn;
    rewrite <- ?app_assoc, ?app_nil_r; repeat split.
Qed.

Lemma listener_on_any_page p :
  exists done rest,
    querySelectorAll tooltip_selector (document p) = done ++ rest /\
    same_host (before_tooltips p) (fst (on_DOMContentLoaded p)) /\
    trace (fst (on_DOMContentLoaded p)) =
      trace p ++ refresh_steps (pathname p) ++
      EvQuerySelectorAll tooltip_selector :: map EvNewTooltip done /\
    match snd (on_DOMContentLoaded p) with
    | Normal _ => rest = []
    | Throw _ => True
    end.
Proof.
  rewrite on_DOMContentLoaded_unfold.
  destruct (before_tooltips_any p) as (_ & _ & _ & _ & _ & _ & _ & _ & Q).
  destruct (tooltip_loop_prefix
              (querySelectorAll tooltip_selector (document p))
              (before_tooltips p)) as (done & rest & L & H & T & C).
  exists done, rest.
  destruct (array_map _ _ _) as [p' [cs|f]]; cbn [fst snd] in *;
    rewrite T, Q, <- !app_assoc; cbn [app]; auto.
Qed.

(** The host fields after the listener, on any page.  The model's library
    reaches the document and its own state only, so these fields are the
    script's own doing. *)
Lemma listener_host_fields p :
  pathname (fst (on_DOMContentLoaded p)) = pathname p /\
  bootstrap (fst (on_DOMContentLoaded p)) = bootstrap p /\
  now (fst (on_DOMContentLoaded p)) = now p /\
  listeners (fst (on_DOMContentLoaded p)) = listeners p /\
  uncaught (fst (on_DOMContentLoaded p)) = uncaught p /\
  timers (fst (on_DOMContentLoaded p)) =
    timers p ++
    (if String.eqb (pathname p) "/"
     then [mkTimer OneShot 30000 (now p + 30000) ReloadArrow] else []) /\
  exists added, trace (fst (on_DOMContentLoaded p)) = trace p ++ added.
Proof.
  destruct (listener_on_any_page p)
    as (done & rest & _ & (H1 & H2 & H3 & H4 & H5 & H6) & T & _).
  destruct (before_tooltips_any p) as (Q1 & Q2 & Q3 & _ & _ & Q6 & Q7 & Q8 & _).
  repeat (split; [congruence|]).
  split; [rewrite H4; exact Q6 | eauto].
Qed.

Lemma filter_reload_added p :
  filter is_reload (trace (fst (on_DOMContentLoaded p))) =
  filter is_reload (trace p).
Proof.
  destruct (listener_on_any_page p) as (done & rest & _ & _ & T & _).
  rewrite T, !filter_app, filter_reload_refresh; cbn.
  rewrite filter_reload_calls, app_nil_r; reflexivity.
Qed.

(** X2: the 30000 ms count from the moment the listener runs, whatever the
    host clock shows then: on a page with no timer armed, the number of
    reload requests [ms] milliseconds after the listener has run is one
    more than before exactly when the path is "/" and [ms] is at least
    30000, and unchanged otherwise. *)
Theorem reload_delay_counts_from_listener_run p (ms : nat) :
  timers p = [] ->
  reloads (host_run ms (fst (on_DOMContentLoaded p))) =
    (reloads p +
     if (String.eqb (pathname p) "/" && (30000 <=? Z.of_nat ms)%Z)%bool
     then 1 else 0)%nat.
Proof.
  intros E.
  destruct (listener_host_fields p) as (_ & _ & N & _ & _ & T & _).
  pose proof (filter_reload_added p) as R.
  rewrite E in T; cbn [app] in T.
  unfold reloads.
  destruct (String.eqb (pathname p) "/"); cbn [andb].
  - destruct (host_run_one_shot ms (fst (on_DOMContentLoaded p))
                30000 (now p + 30000) T) as (Early & Late); [lia|].
    rewrite N in Early, Late.
    destruct (Z.leb_spec 30000 (Z.of_nat ms)).
    + destruct Late as (_ & ->); [lia|].
      rewrite filter_app, R, length_app; reflexivity.
    + destruct Early as (_ & ->); [lia|].
      rewrite R; lia.
  - destruct (host_run_idle ms (fst (on_DOMContentLoaded p)) T) as (_ & ->).
    rewrite R; lia.
Qed.

(** X3: the script acts only through its listener.  Its top level makes
    no host call, arms no timer and reports nothing, and dispatching any
    event other than [DOMContentLoaded] leaves the page exactly as the top
    level left it. *)
Theorem script_waits_for_DOMContentLoaded path d b s (name : string) :
  name <> "DOMContentLoaded" ->
  dispatchEvent name (ready_page path d b s) = ready_page path d b s /\
  trace (ready_page path d b s) = [] /\
  timers (ready_page path d b s) = [] /\
  uncaught (ready_page path d b s) = [].
Proof.
  intros N; repeat split.
  unfold dispatchEvent.
  change (listeners (ready_page path d b s))
    with [("DOMContentLoaded", ReadyListener)].
  cbn [run_listeners].
  destruct (String.eqb_spec "DOMContentLoaded" name) as [E|_];
    [congruence | reflexivity].
Qed.

(** X4: whatever the library is (there or not, throwing or not), no
    element gets two constructor calls, there are never more calls than
    marked elements, and an element of the document gets a call only if it
    carries the marker. *)
Theorem calls_only_on_marked_at_most_once path d b s :
  distinct_nodes d ->
  NoDup (constructions (page_load path d b s)) /\
  (length (constructions (page_load path d b s)) <= length (marked d))%nat /\
  (forall e, In e (all_elements d) ->
     In (node_id e) (constructions (page_load path d b s)) ->
     matches tooltip_selector e = true).
Proof.
  intros N.
  destruct (page_load_constructions path d b s) as (rest & L & _).
  assert (ND : NoDup (querySelectorAll tooltip_selector d))
    by (apply distinct_nodes_filter, N).
  split; [|split].
  - rewrite L in ND; apply NoDup_app_remove_r in ND; assumption.
  - rewrite <- (length_map node_id (marked d)).
    change (map node_id (marked d)) with (querySelectorAll tooltip_selector d).
    rewrite L, length_app; lia.
  - intros e I H.
    apply (selected_iff_matches tooltip_selector d e N I).
    rewrite L; apply in_or_app; auto.
Qed.

Lemma tooltip_loop_upto ctor bad fault (l : list NodeId) : forall p,
  bootstrap p = Namespace (Some ctor) -> throws_exactly_on ctor bad fault ->
  trace (fst (array_map new_bootstrap_Tooltip l p)) =
    trace p ++ map EvNewTooltip (upto_first bad l) /\
  snd (array_map new_bootstrap_Tooltip l p) =
    match find bad l with
    | Some n => Throw (fault n)
    | None => Normal (map ControllerFor l)
    end.
Proof.
  induction l as [|x xs IH]; intros p B X.
  - cbn; rewrite app_nil_r; auto.
  - rewrite array_map_cons, (new_tooltip_present x p ctor B); cbn zeta.
    rewrite X; cbn [upto_first find].
    set (p1 := with_realm _ _ _).
    destruct (bad x); [cbn; auto|].
    destruct (IH p1 B X) as (T & C).
    destruct (array_map new_bootstrap_Tooltip xs p1) as [p2 [ys|e]];
      cbn [fst snd] in *; rewrite T; cbn; rewrite <- app_assoc; cbn;
      split; try reflexivity; destruct (find bad xs); congruence.
Qed.

(** X5: when the constructor throws on some elements, the loop stops at
    the first marked element it throws on: the marked elements before it
    get their call, it gets its call, those after it get none, and the one
    fault it threw is what the host is told.  When it throws on no marked
    element every marked element gets its call and nothing is reported. *)
Theorem first_throw_stops_the_loop path d ctor bad fault s :
  throws_exactly_on ctor bad fault ->
  constructions (page_load path d (Namespace (Some ctor)) s) =
    upto_first bad (querySelectorAll tooltip_selector d) /\
  uncaught (page_load path d (Namespace (Some ctor)) s) =
    match find bad (querySelectorAll tooltip_selector d) with
    | Some n => [fault n]
    | None => []
    end.
Proof.
  intros X; rewrite page_load_tooltips.
  destruct (before_tooltips_ready path d (Namespace (Some ctor)) s)
    as (_ & B & _ & _ & _ & _ & _ & U & T).
  set (q := before_tooltips _) in *.
  set (l := querySelectorAll tooltip_selector d).
  destruct (tooltip_loop_upto ctor bad fault l q B X) as (Tr & C).
  destruct (tooltip_loop_prefix l q) as (_ & _ & _ & (_ & _ & _ & _ & _ & H) & _).
  destruct (array_map new_bootstrap_Tooltip l q) as [p1 [cs|f]];
    cbn [fst snd] in *; unfold constructions, report;
    cbn [with_uncaught trace uncaught];
    rewrite Tr, T, !construction_targets_app, construction_targets_refresh,
      construction_targets_calls;
    destruct (find bad l); try discriminate; split; try reflexivity;
    rewrite ?H, ?U; cbn [app]; congruence.
Qed.

Lemma tooltip_loop_threads_state ctor (l : list NodeId) : forall p,
  bootstrap p = Namespace (Some ctor) -> never_throws ctor ->
  (document (fst (array_map new_bootstrap_Tooltip l p)),
   lib_state (fst (array_map new_bootstrap_Tooltip l p))) =
  construct_all ctor l (document p) (lib_state p).
Proof.
  induction l as [|x xs IH]; intros p B T; [reflexivity|].
  rewrite array_map_cons, (new_tooltip_present x p ctor B); cbn zeta.
  pose proof (T x (document p) (lib_state p)) as Tx.
  set (p1 := with_realm _ _ _).
  specialize (IH p1 B T).
  unfold construct_all in *; cbn [fold_left fst snd].
  rewrite Tx.
  destruct (array_map new_bootstrap_Tooltip xs p1) as [p2 [ys|e]];
    cbn [fst snd] in *; rewrite IH; subst p1; cbn;
    destruct (ctor x (document p) (lib_state p)) as [[d1 s1] o]; reflexivity.
Qed.

(** X7: the selection is taken once, before any constructor runs, and the
    calls run one after the other on it: when the constructor never throws,
    the document and the library state after a page load are what the
    constructor makes of them when run on each reference selected from the
    original document, in order, each call starting from what the one
    before left.  Changes the library makes to the document on the way do
    not change which elements are visited. *)
Theorem constructors_run_in_turn_on_the_snapshot path d ctor s :
  never_throws ctor ->
  (document (page_load path d (Namespace (Some ctor)) s),
   lib_state (page_load path d (Namespace (Some ctor)) s)) =
  construct_all ctor (querySelectorAll tooltip_selector d) d s.
Proof.
  intros T; rewrite page_load_tooltips.
  destruct (before_tooltips_ready path d (Namespace (Some ctor)) s)
    as (_ & B & _ & D & S & _).
  set (q := before_tooltips _) in *.
  pose proof (tooltip_loop_threads_state ctor
                (querySelectorAll tooltip_selector d) q B T) as K.
  destruct (tooltip_loop_total ctor
              (querySelectorAll tooltip_selector d) q B T) as [ys C].
  rewrite D, S in K.
  destruct (array_map _ _ q) as [p1 [cs|f]]; cbn [fst snd] in *;
    [exact K | discriminate].
Qed.

(** *** A page that includes the script several times *)

Lemma include_script_fields (k : nat) : forall p,
  listeners (include_script k p) =
    listeners p ++ repeat ("DOMContentLoaded", ReadyListener) k /\
  pathname (include_script k p) = pathname p /\
  document (include_script k p) = document p /\
  bootstrap (include_script k p) = bootstrap p /\
  now (include_script k p) = now p /\
  timers (include_script k p) = timers p /\
  trace (include_script k p) = trace p /\
  uncaught (include_script k p) = uncaught p.
Proof.
  induction k as [|k IH]; intros p; cbn [include_script repeat].
  - rewrite app_nil_r; repeat split.
  - destruct (IH (fst (script p))) as (L & R).
    split; [|exact R].
    rewrite L; cbn; rewrite <- app_assoc; reflexivity.
Qed.

Lemma listener_throws_on_any_page p :
  tooltip_constructor (bootstrap p) = None ->
  querySelectorAll tooltip_selector (document p) <> [] ->
  exists f, on_DOMContentLoaded p = (before_tooltips p, Throw f).
Proof.
  intros E N; rewrite on_DOMContentLoaded_unfold.
  destruct (before_tooltips_any p) as (_ & B & _).
  rewrite <- B in E.
  destruct (tooltip_loop_absent _ _ E N) as (f & -> & _); eauto.
Qed.

Lemma run_copies (k : nat) : forall p,
  pathname (run_listeners "DOMContentLoaded"
              (repeat ("DOMContentLoaded", ReadyListener) k) p) = pathname p /\
  now (run_listeners "DOMContentLoaded"
         (repeat ("DOMContentLoaded", ReadyListener) k) p) = now p /\
  timers (run_listeners "DOMContentLoaded"
            (repeat ("DOMContentLoaded", ReadyListener) k) p) =
    timers p ++
    (if String.eqb (pathname p) "/"
     then repeat (refresh_timer (now p)) k else []) /\
  filter is_reload
    (trace (run_listeners "DOMContentLoaded"
              (repeat ("DOMContentLoaded", ReadyListener) k) p)) =
    filter is_reload (trace p).
Proof.
  induction k as [|k IH]; intros p; cbn [repeat run_listeners].
  - destruct (String.eqb (pathname p) "/"); rewrite app_nil_r; auto.
  - rewrite String.eqb_refl; cbn [listener_body].
    destruct (listener_host_fields p) as (P & _ & N & _ & _ & T & _).
    pose proof (filter_reload_added p) as R.
    destruct (on_DOMContentLoaded p) as [p1 [u|f]]; cbn [fst] in *.
    + destruct (IH p1) as (P1 & N1 & T1 & R1).
      rewrite P1, N1, T1, R1, P, N, T, R.
      repeat split.
      destruct (String.eqb (pathname p) "/"); cbn;
        rewrite <- ?app_assoc; reflexivity.
    + destruct (IH (report f p1)) as (P1 & N1 & T1 & R1).
      rewrite P1, N1, T1, R1; unfold report;
        cbn [with_uncaught pathname now timers trace].
      rewrite P, N, T, R.
      repeat split.
      destruct (String.eqb (pathname p) "/"); cbn;
        rewrite <- ?app_assoc; reflexivity.
Qed.

Lemma run_copies_missing (k : nat) : forall p,
  tooltip_constructor (bootstrap p) = None ->
  querySelectorAll tooltip_selector (document p) <> [] ->
  length (uncaught (run_listeners "DOMContentLoaded"
                      (repeat ("DOMContentLoaded", ReadyListener) k) p)) =
    (length (uncaught p) + k)%nat.
Proof.
  induction k as [|k IH]; intros p E N; cbn [repeat run_listeners].
  - lia.
  - rewrite String.eqb_refl; cbn [listener_body].
    destruct (listener_throws_on_any_page p E N) as (f & ->).
    destruct (before_tooltips_any p) as (_ & B & _ & D & _ & _ & _ & U & _).
    rewrite IH.
    + unfold report; cbn [with_uncaught uncaught].
      rewrite length_app, U; cbn; lia.
    + unfold report; cbn [with_uncaught bootstrap]; congruence.
    + unfold report; cbn [with_uncaught document]; congruence.
Qed.

Lemma fire_due_one_shots (t dl du : Z) (cb : Callback) (k : nat) :
  fire_due t (repeat (mkTimer OneShot dl du cb) k) =
    if du <=? t then ([], repeat cb k)
    else (repeat (mkTimer OneShot dl du cb) k, []).
Proof.
  induction k as [|k IH]; cbn [repeat fire_due].
  - destruct (du <=? t); reflexivity.
  - rewrite IH; cbn [due kind callback].
    destruct (du <=? t); reflexivity.
Qed.

Lemma run_reload_callbacks (k : nat) : forall p,
  now (fold_left (fun q cb => run_callback cb q) (repeat ReloadArrow k) p) =
    now p /\
  timers (fold_left (fun q cb => run_callback cb q) (repeat ReloadArrow k) p) =
    timers p /\
  trace (fold_left (fun q cb => run_callback cb q) (repeat ReloadArrow k) p) =
    trace p ++ repeat EvReload k.
Proof.
  induction k as [|k IH]; intros p; cbn [repeat fold_left].
  - rewrite app_nil_r; auto.
  - destruct (IH (run_callback ReloadArrow p)) as (N & T & R).
    rewrite N, T, R; cbn; rewrite <- app_assoc; auto.
Qed.

Lemma host_run_one_shots (k : nat) (ms : nat) : forall p dl du,
  timers p = repeat (mkTimer OneShot dl du ReloadArrow) k ->
  now p < du ->
  (now p + Z.of_nat ms < du ->
   trace (host_run ms p) = trace p) /\
  (du <= now p + Z.of_nat ms ->
   trace (host_run ms p) = trace p ++ repeat EvReload k).
Proof.
  induction ms as [|m IH]; intros p dl du E N.
  - cbn [host_run]; split; intros; [auto | lia].
  - cbn [host_run].
    assert (C : now (host_tick p) = now p + 1).
    { unfold host_tick; rewrite E, fire_due_one_shots.
      destruct (du <=? now p + 1); [|reflexivity].
      destruct (run_reload_callbacks k
                  (with_timers [] (with_now (now p + 1) p))) as (K & _).
      exact K. }
    destruct (Z.lt_ge_cases (now p + 1) du) as [Lt|Ge].
    + assert (S1 : timers (host_tick p) = timers p /\
                   trace (host_tick p) = trace p).
      { unfold host_tick; rewrite E, fire_due_one_shots.
        destruct (Z.leb_spec du (now p + 1)); [lia|]; cbn; auto. }
      destruct S1 as (E1 & T1).
      destruct (IH (host_tick p) dl du) as (A & B); [congruence | lia |].
      rewrite C in A, B.
      split; intros H; [rewrite A by lia | rewrite B by lia]; congruence.
    + assert (S1 : timers (host_tick p) = [] /\
                   trace (host_tick p) = trace p ++ repeat EvReload k).
      { unfold host_tick; rewrite E, fire_due_one_shots.
        destruct (Z.leb_spec du (now p + 1)); [|lia].
        destruct (run_reload_callbacks k
                    (with_timers [] (with_now (now p + 1) p))) as (_ & T & R).
        split; assumption. }
      destruct S1 as (E1 & T1).
      destruct (host_run_idle m (host_tick p) E1) as (_ & T2).
      split; intros H; [lia | congruence].
Qed.

Lemma filter_reload_repeat (k : nat) :
  length (filter is_reload (repeat EvReload k)) = k.
Proof. induction k; cbn; auto. Qed.

(** X8: the script has no guard against being included more than once.
    On a page that includes it [k] times, [k] listeners run: on the path
    "/" they arm [k] one-shot timers and [k] reload requests are issued at
    30000 ms, none on another path; and when [bootstrap.Tooltip] is not
    there and an element is marked, each listener throws on its own and
    [k] faults are reported.  With one copy the page is the page load of
    the claims. *)
Theorem each_copy_of_the_script_acts path d b s (k ms : nat) :
  page_load_copies 1 path d b s = page_load path d b s /\
  timers (page_load_copies k path d b s) =
    (if String.eqb path "/"
     then repeat (mkTimer OneShot 30000 30000 ReloadArrow) k else []) /\
  reloads (host_run ms (page_load_copies k path d b s)) =
    (if (String.eqb path "/" && (30000 <=? Z.of_nat ms))%bool
     then k else 0%nat) /\
  (tooltip_constructor b = None -> marked d <> [] ->
   length (uncaught (page_load_copies k path d b s)) = k).
Proof.
  split; [reflexivity|].
  unfold page_load_copies, dispatchEvent.
  destruct (include_script_fields k (fresh_page path d b s))
    as (L & P & D & B & N & T & Tr & U).
  set (p0 := include_script k (fresh_page path d b s)) in *.
  cbn [fresh_page listeners pathname document bootstrap now timers trace
       uncaught app] in *.
  rewrite L.
  destruct (run_copies k p0) as (P1 & N1 & T1 & R1).
  rewrite P, N, T in *; cbn [app] in T1.
  split; [exact T1|]. split.
  - unfold reloads.
    destruct (String.eqb path "/"); cbn [andb].
    + destruct (host_run_one_shots k ms _ 30000 (0 + 30000) T1) as (Early & Late);
        [lia|].
      rewrite N1 in Early, Late.
      destruct (Z.leb_spec 30000 (Z.of_nat ms)).
      * rewrite Late by lia.
        rewrite filter_app, length_app, R1, Tr, filter_reload_repeat; reflexivity.
      * rewrite Early by lia. rewrite R1, Tr; reflexivity.
    + destruct (host_run_idle ms _ T1) as (_ & ->).
      rewrite R1, Tr; reflexivity.
  - intros E M.
    rewrite run_copies_missing.
    + rewrite U; reflexivity.
    + rewrite B; exact E.
    + rewrite D; unfold querySelectorAll; fold (marked d).
      destruct (marked d); [congruence | discriminate].
Qed.

End Listener.

(** ** The listener's properties on the example pages *)

Lemma picky_tooltip_throws_on_3 :
  throws_exactly_on picky_tooltip (fun n => Nat.eqb n 3)
    (fun _ => LibraryFault "no title").
Proof. intros n d s; reflexivity. Qed.

Lemma wiping_tooltip_never_throws : never_throws wiping_tooltip.
Proof. intros n d s; reflexivity. Qed.

Lemma reload_delay_counts_from_listener_run_witness :
  timers page_late = [] /\
  reloads (host_run (Z.to_nat 30000) (fst (on_DOMContentLoaded page_late))) =
    1%nat.
Proof.
  split; [reflexivity|].
  exact (reload_delay_counts_from_listener_run
           page_late (Z.to_nat 30000) eq_refl).
Defined.

Lemma script_waits_for_DOMContentLoaded_witness :
  "load" <> "DOMContentLoaded" /\
  dispatchEvent "load" (ready_page "/" doc_dashboard (@Undeclared unit) tt) =
    ready_page "/" doc_dashboard (@Undeclared unit) tt.
Proof.
  split; [discriminate|].
  apply (script_waits_for_DOMContentLoaded
           "/" doc_dashboard (@Undeclared unit) tt "load").
  discriminate.
Defined.

Lemma calls_only_on_marked_at_most_once_witness :
  distinct_nodes doc_dashboard /\
  NoDup (constructions
           (page_load "/" doc_dashboard (Namespace (Some fragile_tooltip)) 0%nat)).
Proof.
  split; [exact doc_dashboard_distinct|].
  apply (calls_only_on_marked_at_most_once
           "/" doc_dashboard (Namespace (Some fragile_tooltip)) 0%nat
           doc_dashboard_distinct).
Defined.

Lemma first_throw_stops_the_loop_witness :
  throws_exactly_on picky_tooltip (fun n => Nat.eqb n 3)
    (fun _ => LibraryFault "no title") /\
  constructions
    (page_load "/" doc_dashboard (Namespace (Some picky_tooltip)) tt) =
    [1; 3]%nat /\
  uncaught
    (page_load "/" doc_dashboard (Namespace (Some picky_tooltip)) tt) =
    [LibraryFault "no title"].
Proof.
  split; [exact picky_tooltip_throws_on_3|].
  exact (first_throw_stops_the_loop
           "/" doc_dashboard picky_tooltip (fun n => Nat.eqb n 3)
           (fun _ => LibraryFault "no title") tt picky_tooltip_throws_on_3).
Defined.

Lemma constructors_run_in_turn_on_the_snapshot_witness :
  never_throws wiping_tooltip /\
  (document (page_load "/" doc_dashboard (Namespace (Some wiping_tooltip)) 0%nat),
   lib_state (page_load "/" doc_dashboard (Namespace (Some wiping_tooltip)) 0%nat)) =
    ([], 3%nat).
Proof.
  split; [exact wiping_tooltip_never_throws|].
  exact (constructors_run_in_turn_on_the_snapshot
           "/" doc_dashboard wiping_tooltip 0%nat wiping_tooltip_never_throws).
Defined.
